(** * SchoolElectionApp: the URL configuration and the admin configuration

    A shallow embedding of the two modules of the [voteApp] package,
    [urls.py] and [admin.py], together with the part of the web framework
    they are written against: route patterns and first-match resolution for
    the URL table, class bodies, the admin site's registry and the inline
    formset for the admin module.  The views ([views.py]) and the models
    ([models.py]) are not part of the embedded files; they occur only as the
    names the two modules import. *)

From Stdlib Require Import String Ascii List ZArith NArith Bool Lia.
From Stdlib Require Import DecimalString DecimalN DecimalZ.
From stdpp Require Import base option gmap strings.


Import ListNotations.

(** ** Exceptions and results *)

(** The exceptions the embedded code and the framework calls it makes can
    raise. *)
Inductive exn : Type :=
  | Resolver404
  | ImproperlyConfigured (msg : string)
  | AlreadyRegistered (model_name : string).

Inductive result (A : Type) : Type :=
  | Ok (a : A)
  | Raise (e : exn).

Arguments Ok {A} a.
Arguments Raise {A} e.

Definition bind {A B : Type} (r : result A) (k : A -> result B) : result B :=
  match r with
  | Ok a => k a
  | Raise e => Raise e
  end.

Notation "'do' x <- r ; k" := (bind r (fun x => k))
  (at level 10, x name, r at level 100, k at level 200).

(** ** Characters and strings *)

Module Chars.

Definition is_digit (c : ascii) : bool :=
  let n := N_of_ascii c in (48 <=? n)%N && (n <=? 57)%N.

Definition is_alpha (c : ascii) : bool :=
  let n := N_of_ascii c in
  ((65 <=? n)%N && (n <=? 90)%N) || ((97 <=? n)%N && (n <=? 122)%N).

Definition is_space (c : ascii) : bool :=
  let n := N_of_ascii c in
  (n =? 32)%N || ((9 <=? n)%N && (n <=? 13)%N).

Definition is_slash (c : ascii) : bool := Ascii.eqb c "/".

Fixpoint all (p : ascii -> bool) (s : string) : bool :=
  match s with
  | EmptyString => true
  | String c s' => p c && all p s'
  end.

Fixpoint any (p : ascii -> bool) (s : string) : bool :=
  match s with
  | EmptyString => false
  | String c s' => p c || any p s'
  end.

Definition nonempty (s : string) : bool :=
  match s with
  | EmptyString => false
  | String _ _ => true
  end.

(** [str.isidentifier()] on ASCII text. *)
Definition isidentifier (s : string) : bool :=
  match s with
  | EmptyString => false
  | String c s' =>
      (is_alpha c || Ascii.eqb c "_")
      && all (fun d => is_alpha d || is_digit d || Ascii.eqb d "_") s'
  end.

(** [s.partition(c)]: the text before the first [c] and the text after it,
    when [c] occurs. *)
Fixpoint partition (c : ascii) (s : string) : option (string * string) :=
  match s with
  | EmptyString => None
  | String d s' =>
      if Ascii.eqb d c then Some (EmptyString, s')
      else match partition c s' with
           | Some (a, b) => Some (String d a, b)
           | None => None
           end
  end.

(** [s.removeprefix(p)] when [s.startswith(p)]. *)
Fixpoint strip_prefix (p s : string) : option string :=
  match p, s with
  | EmptyString, _ => Some s
  | String a p', String b s' =>
      if Ascii.eqb a b then strip_prefix p' s' else None
  | String _ _, EmptyString => None
  end.

(** [s.split('/')[0]] *)
Fixpoint first_segment (s : string) : string :=
  match s with
  | EmptyString => EmptyString
  | String c s' => if is_slash c then EmptyString else String c (first_segment s')
  end.

(** A decimal integer as the [int] converter reads one: one or more of the
    digits 0 to 9. *)
Definition is_decimal (s : string) : bool := nonempty s && all is_digit s.

End Chars.

(** [c * n] *)
Fixpoint replicate (n : nat) (c : ascii) : string :=
  match n with
  | O => EmptyString
  | S n' => String c (replicate n' c)
  end.

(** ** The names imported from [views] *)

(** [from . import views]: the URL table refers to five attributes of that
  module.  Only their names are used here. *)
Module views.
Inductive view : Type := index | detail | results | vote | home.

Definition eqb (a b : view) : bool :=
  match a, b with
  | index, index | detail, detail | results, results
  | vote, vote | home, home => true
  | _, _ => false
  end.

Definition view_name (v : view) : string :=
  match v with
  | index => "index"
  | detail => "detail"
  | results => "results"
  | vote => "vote"
  | home => "home"
  end.
End views.

(** ** Path converters *)

Inductive pyvalue : Type :=
  | PyInt (z : Z)
  | PyStr (s : string).

(** The two converters a route of this table can name: [int], and [str],
    which a parameter without a converter gets.  The framework's other
    registered converters (slug, uuid, path) are not used by [urls.py] and
    are not modelled; a route that named one is reported as misconfigured. *)
Inductive converter : Type := IntConverter | StringConverter.

Definition get_converter (raw : string) : option converter :=
  if String.eqb raw "int" then Some IntConverter
  else if String.eqb raw "str" then Some StringConverter
  else None.

(** The character class of the converter's regex: [[0-9]+] for [int],
    [[^/]+] for [str]. *)
Definition converter_class (c : converter) : ascii -> bool :=
  match c with
  | IntConverter => Chars.is_digit
  | StringConverter => fun a => negb (Chars.is_slash a)
  end.

(** CPython's default limit on the number of digits in a conversion
    between [int] and decimal text ([sys.get_int_max_str_digits()]): beyond
    it both [str(n)] and [int(s)] raise [ValueError]. *)
Definition int_max_str_digits : nat := 4300.

Definition within_digit_limit (digits : string) : bool :=
  Nat.leb (String.length digits) int_max_str_digits.

(** Python's [str(n)]; [None] stands for the [ValueError] of a number
    with too many digits.  The sign does not count as a digit. *)
Definition py_str (z : Z) : option string :=
  let digits :=
    match Z.to_int z with
    | Decimal.Pos d | Decimal.Neg d => NilZero.string_of_uint d
    end in
  if within_digit_limit digits
  then Some (NilZero.string_of_int (Z.to_int z))
  else None.

(** Python's [int(s)] on the text the [int] converter's regex lets through
    (digits only); [None] stands for its [ValueError].  Leading zeros count
    as digits. *)
Definition py_int (s : string) : option Z :=
  if within_digit_limit s
  then match NilZero.uint_of_string s with
       | Some d => Some (Z.of_N (N.of_uint d))
       | None => None
       end
  else None.

(** [converter.to_python(value)]; [None] stands for the [ValueError] that
    [RoutePattern.match] catches. *)
Definition to_python (c : converter) (value : string) : option pyvalue :=
  match c with
  | IntConverter => option_map PyInt (py_int value)
  | StringConverter => Some (PyStr value)
  end.

(** ** Route patterns *)

(** What a route compiles to: literal text and named parameters, in order.
    The compiled regex is [^], the parts, and [\Z] for an end point. *)
Inductive part : Type :=
  | Literal (text : string)
  | Capture (name : string) (conv : converter).

(** One attempt of the parameter regex
    [<(?:(?P<converter>[^>:]+):)?(?P<parameter>[^<>]+)>] right after an
    opening [<]: the text up to the first [>] is [converter:parameter], or a
    parameter alone.  Yields the converter's name (if given), the parameter
    and the text after the closing [>]. *)
Definition parameter_at (s : string) : option (option string * string * string) :=
  match Chars.partition ">" s with
  | None => None
  | Some (inner, after) =>
      let plain (p : string) :=
        Chars.nonempty p && negb (Chars.any (Ascii.eqb "<") p) in
      let alone :=
        if plain inner then Some (None, inner, after) else None in
      match Chars.partition ":" inner with
      | Some (conv, param) =>
          if Chars.nonempty conv && plain param
          then Some (Some conv, param, after)
          else alone
      | None => alone
      end
  end.

(** [_PATH_PARAMETER_COMPONENT_RE.search(route)]: the leftmost parameter, with
    the text before it. *)
Fixpoint search_parameter (route : string)
  : option (string * option string * string * string) :=
  match route with
  | EmptyString => None
  | String c route' =>
      let here := if Ascii.eqb c "<" then parameter_at route' else None in
      match here with
      | Some (conv, param, after) => Some (EmptyString, conv, param, after)
      | None =>
          match search_parameter route' with
          | Some (before, conv, param, after) =>
              Some (String c before, conv, param, after)
          | None => None
          end
      end
  end.

(** The loop of [_route_to_regex]; every round consumes at least the three
    characters of a parameter, so the length of the route bounds the rounds. *)
Fixpoint route_to_parts (rounds : nat) (route : string) : result (list part) :=
  match search_parameter route with
  | None => Ok [Literal route]
  | Some (before, raw_converter, parameter, after) =>
      match rounds with
      | O => Raise (ImproperlyConfigured route)
      | S rounds' =>
          if Chars.any Chars.is_space parameter
             || match raw_converter with
                | Some r => Chars.any Chars.is_space r
                | None => false
                end
          then Raise (ImproperlyConfigured "URL route cannot contain whitespace in angle brackets")
          else if negb (Chars.isidentifier parameter)
          then Raise (ImproperlyConfigured "URL route uses a parameter name that is not a valid identifier")
          else
            match get_converter (default "str" raw_converter) with
            | None => Raise (ImproperlyConfigured "URL route uses an invalid converter")
            | Some conv =>
                do rest <- route_to_parts rounds' after;
                Ok (Literal before :: Capture parameter conv :: rest)
            end
      end
  end.

Definition _route_to_regex (route : string) : result (list part) :=
  route_to_parts (String.length route) route.

(** The ways [cls+] can match at the start of [s], longest first: the
    captured text and what follows it. *)
Fixpoint class_splits (cls : ascii -> bool) (s : string) : list (string * string) :=
  match s with
  | EmptyString => []
  | String c s' =>
      if cls c
      then map (fun '(cap, rest) => (String c cap, rest)) (class_splits cls s')
             ++ [(String c EmptyString, s')]
      else []
  end.

Fixpoint first_some {A B : Type} (f : A -> option B) (l : list A) : option B :=
  match l with
  | [] => None
  | a :: l' =>
      match f a with
      | Some b => Some b
      | None => first_some f l'
      end
  end.

(** The compiled regex against a path, from its start: the groups it
    captures, by name, and the text left after the match
    ([path[match.end():]]).  The regex of an end point closes with [\Z] and
    leaves nothing; the regex of a prefix pattern stops where its parts
    stop. *)
Fixpoint match_parts (is_endpoint : bool) (ps : list part) (s : string)
  : option (list (string * string) * string) :=
  match ps with
  | [] =>
      if is_endpoint
      then match s with EmptyString => Some ([], EmptyString) | String _ _ => None end
      else Some ([], s)
  | Literal text :: ps' =>
      match Chars.strip_prefix text s with
      | Some rest => match_parts is_endpoint ps' rest
      | None => None
      end
  | Capture name conv :: ps' =>
      first_some
        (fun '(cap, rest) =>
           match match_parts is_endpoint ps' rest with
           | Some (groups, new_path) => Some ((name, cap) :: groups, new_path)
           | None => None
           end)
        (class_splits (converter_class conv) s)
  end.

Definition converter_of (ps : list part) (key : string) : option converter :=
  first_some
    (fun p => match p with
              | Capture name conv => if String.eqb name key then Some conv else None
              | Literal _ => None
              end) ps.

(** The conversion loop of [RoutePattern.match]: a [ValueError] of
    [to_python] makes the pattern not match. *)
Fixpoint convert_groups (ps : list part) (groups : list (string * string))
  : option (list (string * pyvalue)) :=
  match groups with
  | [] => Some []
  | (key, value) :: groups' =>
      match converter_of ps key with
      | None => None
      | Some conv =>
          match to_python conv value, convert_groups ps groups' with
          | Some v, Some kwargs => Some ((key, v) :: kwargs)
          | _, _ => None
          end
      end
  end.

Record RoutePattern : Type := {
  _route : string;
  pattern_name : string;
  _is_endpoint : bool
}.

(** [RoutePattern.match]: the rest of the path and the keyword arguments
    when the path matches, [None] when it does not. *)
Definition RoutePattern_match (p : RoutePattern) (path : string)
  : result (option (string * list (string * pyvalue))) :=
  do ps <- _route_to_regex (_route p);
  Ok (match match_parts (_is_endpoint p) ps path with
      | Some (groups, new_path) =>
          match convert_groups ps groups with
          | Some kwargs => Some (new_path, kwargs)
          | None => None
          end
      | None => None
      end).

(** ** URL patterns and resolution *)

Record URLPattern : Type := {
  pattern : RoutePattern;
  callback : views.view;
  name : string
}.

(** [django.urls.path(route, view, name=...)] with a view (not an
    [include]): an end-point pattern. *)
Definition path (route : string) (view : views.view) (name : string) : URLPattern :=
  {| pattern := {| _route := route; pattern_name := name; _is_endpoint := true |};
     callback := view;
     name := name |}.

Record ResolverMatch : Type := {
  func : views.view;
  kwargs : list (string * pyvalue);
  url_name : string;
  app_names : list string;
  route : string
}.

(** [URLPattern.resolve], together with what the resolver that holds the
    pattern adds to its answer: the application namespace [app_name], put
    in front of the (empty) [app_names] of the pattern's own match. *)
Definition URLPattern_resolve (app_name : string) (p : URLPattern) (path : string)
  : result (option ResolverMatch) :=
  do m <- RoutePattern_match (pattern p) path;
  Ok (match m with
      | Some (new_path, kw) =>
          Some {| func := callback p;
                  kwargs := kw;
                  url_name := pattern_name (pattern p);
                  app_names := [app_name];
                  route := _route (pattern p) |}
      | None => None
      end).

(** The loop of [URLResolver.resolve] over the patterns of a URLconf, on the
    path that is left once the prefix under which the URLconf is included
    has been consumed: the first pattern that matches answers, and
    [Resolver404] is raised when none does. *)
Fixpoint resolve_patterns (app_name : string) (patterns : list URLPattern) (path : string)
  : result ResolverMatch :=
  match patterns with
  | [] => Raise Resolver404
  | p :: patterns' =>
      do sub_match <- URLPattern_resolve app_name p path;
      match sub_match with
      | Some m => Ok m
      | None => resolve_patterns app_name patterns' path
      end
  end.

(** ** [voteApp/urls.py] *)

Module urls.

Definition app_name : string := "polls".

Definition urlpatterns : list URLPattern := [
  path "" views.index "index";
  path "<int:question_id>/" views.detail "detail";
  path "<int:question_id>/results/" views.results "results";
  path "<int:question_id>/vote/" views.vote "vote";
  path "" views.home "home"
].

Definition resolve (request_path : string) : result ResolverMatch :=
  resolve_patterns app_name urlpatterns request_path.

(** What the first route answers on the empty path. *)
Definition index_match : ResolverMatch :=
  {| func := views.index; kwargs := []; url_name := "index";
     app_names := [app_name]; route := "" |}.

(** The view a request path is dispatched to, if any. *)
Definition dispatch (request_path : string) : option views.view :=
  match resolve request_path with
  | Ok m => Some (func m)
  | Raise _ => None
  end.

Definition dispatches_to (v : views.view) (request_path : string) : bool :=
  match dispatch request_path with
  | Some w => views.eqb w v
  | None => false
  end.

(** The routes of the table that name the view [v]. *)
Definition routes_of (v : views.view) : list string :=
  map (fun p => _route (pattern p))
      (filter (fun p => views.eqb (callback p) v) urlpatterns).

End urls.

(** ** The names imported from [models] *)

(** [from .models import Question, Choice]: the two model classes, known
    here by their names; both are taken to be concrete (neither abstract nor
    swapped) models. *)
Module models.
Definition model : Type := string.
Definition Question : model := "Question".
Definition Choice : model := "Choice".
End models.

(** ** Admin options *)

(** The two layouts [InlineModelAdmin] comes in. *)
Inductive inline_kind : Type := TabularInline | StackedInline.

(** The body of a subclass of an inline class.  An attribute the body does
    not assign is [None]: the class then inherits the framework's value. *)
Record InlineClass : Type := {
  inline_name : string;
  inline_base : inline_kind;
  model : option models.model;
  extra : option Z;
  min_num : option Z;
  max_num : option Z;
  fields : option (list string)
}.

(** One entry of [fieldsets]: the section's title ([None] for no title) and
    its options dictionary, in the order the keys are written. *)
Definition fieldset : Type := (option string * list (string * list string))%type.

(** The body of a subclass of [admin.ModelAdmin], with [None] again for an
    attribute that is not assigned. *)
Record ModelAdminClass : Type := {
  admin_name : string;
  fieldsets : option (list fieldset);
  inlines : option (list InlineClass);
  list_display : option (list string);
  list_filter : option (list string);
  search_fields : option (list string)
}.

(** [options.get(key, ())] of a fieldset's dictionary. *)
Fixpoint dict_get (key : string) (d : list (string * list string)) : list string :=
  match d with
  | [] => []
  | (k, v) :: d' => if String.eqb k key then v else dict_get key d'
  end.

Definition fieldset_title (fs : fieldset) : option string := fst fs.
Definition fieldset_fields (fs : fieldset) : list string := dict_get "fields" (snd fs).
Definition fieldset_classes (fs : fieldset) : list string := dict_get "classes" (snd fs).

Definition contains (x : string) (l : list string) : bool :=
  existsb (String.eqb x) l.

(** A section folds when its classes include [collapse]. *)
Definition is_collapsible (fs : fieldset) : bool :=
  contains "collapse" (fieldset_classes fs).

(** What a section of [fieldsets] shows: its title, its fields and whether
    it folds. *)
Definition section_summary (fs : fieldset) : option string * list string * bool :=
  (fieldset_title fs, fieldset_fields fs, is_collapsible fs).

(** [InlineModelAdmin.get_extra(request, obj)]: the hook the formset asks
    for the number of extra forms; it answers [self.extra] whatever the
    parent object [obj] is.  [InlineModelAdmin.extra] itself is 3. *)
Definition InlineModelAdmin_extra : Z := 3.

Definition get_extra {Obj : Type} (inline : InlineClass) (obj : option Obj) : Z :=
  default InlineModelAdmin_extra (extra inline).

(** ** The inline formset *)

(** [django.forms.formsets]: the bounds a formset gets when its factory is
    given [None]. *)
Definition DEFAULT_MIN_NUM : Z := 0.
Definition DEFAULT_MAX_NUM : Z := 1000.

(** [BaseFormSet.total_form_count] of an unbound formset (the one a page
    shows before anything is posted): the existing objects are all shown,
    and the extra forms only as far as [max_num] allows. *)
Definition total_form_count (extra min_num max_num initial_forms : Z) : Z :=
  let total_forms := (Z.max initial_forms min_num + extra)%Z in
  if (max_num <? initial_forms)%Z && (0 <=? max_num)%Z then initial_forms
  else if (max_num <? total_forms)%Z && (0 <=? max_num)%Z then max_num
  else total_forms.

(** The formset of an inline on the page of a parent object with
    [initial_forms] related objects, for a user who may change the parent
    and the related objects; [has_add_permission] says whether the user may
    also add related objects.  [ModelAdmin.get_inline_instances] sets
    [max_num] to 0 for a user who may not; [get_formset] hands [extra],
    [min_num] and [max_num] to the factory, which puts the defaults in the
    place of [None]. *)
Definition inline_total_forms (inline : InlineClass) (has_add_permission : bool)
    (initial_forms : Z) : Z :=
  let inline_max_num := if has_add_permission then max_num inline else Some 0%Z in
  total_form_count
    (get_extra inline (Some initial_forms))
    (default DEFAULT_MIN_NUM (min_num inline))
    (default DEFAULT_MAX_NUM inline_max_num)
    initial_forms.

(** The empty forms shown after those of the existing objects. *)
Definition extra_forms_displayed (inline : InlineClass) (has_add_permission : bool)
    (initial_forms : Z) : Z :=
  (inline_total_forms inline has_add_permission initial_forms - initial_forms)%Z.

(** ** The admin site *)

(** What [site.register] stores for a model: [admin_class(model, site)]. *)
Record ModelAdmin : Type := {
  admin_class : ModelAdminClass;
  admin_model : models.model
}.

Record AdminSite : Type := {
  site_header : string;
  site_title : string;
  index_title : string;
  _registry : gmap string ModelAdmin
}.

(** A fresh [AdminSite()]. *)
Definition default_site : AdminSite :=
  {| site_header := "Django administration";
     site_title := "Django site admin";
     index_title := "Site administration";
     _registry := ∅ |}.

Definition set_site_header (v : string) (site : AdminSite) : AdminSite :=
  {| site_header := v; site_title := site_title site;
     index_title := index_title site; _registry := _registry site |}.

Definition set_site_title (v : string) (site : AdminSite) : AdminSite :=
  {| site_header := site_header site; site_title := v;
     index_title := index_title site; _registry := _registry site |}.

Definition set_index_title (v : string) (site : AdminSite) : AdminSite :=
  {| site_header := site_header site; site_title := site_title site;
     index_title := v; _registry := _registry site |}.

Definition is_registered (site : AdminSite) (m : models.model) : bool :=
  bool_decide (is_Some (_registry site !! m)).

(** [AdminSite.register(model, admin_class)] for one concrete model: a model
    that is already registered raises [AlreadyRegistered]. *)
Definition register (m : models.model) (cls : ModelAdminClass) (site : AdminSite)
  : result AdminSite :=
  if is_registered site m then Raise (AlreadyRegistered m)
  else Ok {| site_header := site_header site;
             site_title := site_title site;
             index_title := index_title site;
             _registry := <[m := {| admin_class := cls; admin_model := m |}]>
                            (_registry site) |}.

(** ** [voteApp/admin.py] *)

Module admin.

(** Inline editing for Choices within the Question admin page *)
Definition ChoiceInline : InlineClass :=
  {| inline_name := "ChoiceInline";
     inline_base := TabularInline;
     model := Some models.Choice;
     extra := Some 3%Z;
     min_num := None;
     max_num := None;
     fields := Some ["choice_text"; "image"; "votes"] |}.

(** Customize the Question admin interface *)
Definition QuestionAdmin : ModelAdminClass :=
  {| admin_name := "QuestionAdmin";
     fieldsets := Some [
       (None, [("fields", ["question_text"])]);
       (Some "Date Information", [("fields", ["pub_date"]); ("classes", ["collapse"])])
     ];
     inlines := Some [ChoiceInline];
     list_display := Some ["question_text"; "pub_date"; "was_published_recently"];
     list_filter := Some ["pub_date"];
     search_fields := Some ["question_text"] |}.

(** Customize the Choice admin interface *)
Definition ChoiceAdmin : ModelAdminClass :=
  {| admin_name := "ChoiceAdmin";
     fieldsets := None;
     inlines := None;
     list_display := Some ["choice_text"; "question"; "image"; "votes"];
     list_filter := Some ["question"];
     search_fields := Some ["choice_text"] |}.

(** The statements of the module, run in order on the state of
    [admin.site]. *)
Definition run (site : AdminSite) : result AdminSite :=
  let site := set_site_header "St. Francis School Student Council Elections" site in
  let site := set_site_title "Voting Admin Portal" site in
  let site := set_index_title "Welcome to the Voting Admin Area" site in
  do site <- register models.Question QuestionAdmin site;
  do site <- register models.Choice ChoiceAdmin site;
  Ok site.

End admin.

(** ** The statements of the two modules *)

(** The top-level statements of a module, by kind, with the names they bind
    or use; a class carries the statements of its body. *)
Module source.

#[warnings="-register-all"] Inductive statement : Type :=
  | ImportFrom (module : string) (names : list string)
  | Assign (target : string)
  | ClassDef (name : string) (bases : list string) (body : list statement)
  | FunctionDef (name : string)
  | Call (function : string) (arguments : list string).

(** [voteApp/urls.py] *)
Definition urls_py : list statement := [
  ImportFrom "django.urls" ["path"];
  ImportFrom "django.conf" ["settings"];
  ImportFrom "django.conf.urls.static" ["static"];
  ImportFrom "." ["views"];
  Assign "app_name";
  Assign "urlpatterns"
].

(** [voteApp/admin.py] *)
Definition admin_py : list statement := [
  ImportFrom "django.contrib" ["admin"];
  ImportFrom ".models" ["Question"; "Choice"];
  Assign "admin.site.site_header";
  Assign "admin.site.site_title";
  Assign "admin.site.index_title";
  ClassDef "ChoiceInline" ["admin.TabularInline"]
    [Assign "model"; Assign "extra"; Assign "fields"];
  ClassDef "QuestionAdmin" ["admin.ModelAdmin"]
    [Assign "fieldsets"; Assign "inlines"; Assign "list_display";
     Assign "list_filter"; Assign "search_fields"];
  ClassDef "ChoiceAdmin" ["admin.ModelAdmin"]
    [Assign "list_display"; Assign "list_filter"; Assign "search_fields"];
  Call "admin.site.register" ["Question"; "QuestionAdmin"];
  Call "admin.site.register" ["Choice"; "ChoiceAdmin"]
].

(** The functions and methods a statement defines, classes included. *)
Fixpoint functions_of (st : statement) : list string :=
  match st with
  | FunctionDef name => [name]
  | ClassDef _ _ body => flat_map functions_of body
  | _ => []
  end.

Definition defined_functions (l : list statement) : list string :=
  flat_map functions_of l.

(** The names a module gets by import. *)
Fixpoint imported_names (l : list statement) : list string :=
  match l with
  | [] => []
  | ImportFrom _ names :: l' => names ++ imported_names l'
  | _ :: l' => imported_names l'
  end.

End source.

(** ** Where the admin names a field *)

Definition names_field (field : string) (value : option (list string)) : bool :=
  contains field (default [] value).

(** The attributes of an admin class of the module whose value names the
    field, as pairs of class and attribute. *)
Definition admin_class_mentions (field : string) (cls : ModelAdminClass)
  : list (string * string) :=
  (if existsb (fun fs => contains field (fieldset_fields fs))
        (default [] (fieldsets cls))
   then [(admin_name cls, "fieldsets")] else [])
  ++ (if names_field field (list_display cls)
      then [(admin_name cls, "list_display")] else [])
  ++ (if names_field field (list_filter cls)
      then [(admin_name cls, "list_filter")] else [])
  ++ (if names_field field (search_fields cls)
      then [(admin_name cls, "search_fields")] else []).

Definition inline_class_mentions (field : string) (cls : InlineClass)
  : list (string * string) :=
  if names_field field (fields cls) then [(inline_name cls, "fields")] else [].

(** Every place where the three classes of [admin.py] name a field. *)
Definition admin_mentions (field : string) : list (string * string) :=
  inline_class_mentions field admin.ChoiceInline
  ++ admin_class_mentions field admin.QuestionAdmin
  ++ admin_class_mentions field admin.ChoiceAdmin.

(** ** The URL table read as a decision *)

(** The table of [urls.py] read route by route, without regexes: cut the
    path at its first slash, take the first segment as the [question_id] and
    look the rest up.  [urls.resolve] is compared with it below. *)
Module urls_table.

Definition int_match (v : views.view) (nm route : string) (question_id : Z)
  : ResolverMatch :=
  {| func := v; kwargs := [("question_id", PyInt question_id)]; url_name := nm;
     app_names := ["polls"]; route := route |}.

Definition decide (request : string) : result ResolverMatch :=
  match request with
  | EmptyString => Ok urls.index_match
  | String _ _ =>
      match Chars.partition "/" request with
      | None => Raise Resolver404
      | Some (segment, rest) =>
          if Chars.is_decimal segment
          then match py_int segment with
               | None => Raise Resolver404
               | Some question_id =>
                   if String.eqb rest ""
                   then Ok (int_match views.detail "detail"
                              "<int:question_id>/" question_id)
                   else if String.eqb rest "results/"
                   then Ok (int_match views.results "results"
                              "<int:question_id>/results/" question_id)
                   else if String.eqb rest "vote/"
                   then Ok (int_match views.vote "vote"
                              "<int:question_id>/vote/" question_id)
                   else Raise Resolver404
               end
          else Raise Resolver404
      end
  end.

(** [s.endswith('/')] *)
Fixpoint ends_with_slash (s : string) : bool :=
  match s with
  | EmptyString => false
  | String c EmptyString => Chars.is_slash c
  | String _ s' => ends_with_slash s'
  end.

End urls_table.

(** ** The admin module as Python runs it *)

(** The statements of [admin.py] work on the one [admin.site] object: what a
    statement did to the site stays done when a later statement raises.
    Here a run yields the site as it is left and the exception, if any. *)
Module admin_effects.

Definition register (m : models.model) (cls : ModelAdminClass) (site : AdminSite)
  : AdminSite * option exn :=
  match register m cls site with
  | Ok site' => (site', None)
  | Raise e => (site, Some e)
  end.

Definition run (site : AdminSite) : AdminSite * option exn :=
  let site := set_site_header "St. Francis School Student Council Elections" site in
  let site := set_site_title "Voting Admin Portal" site in
  let site := set_index_title "Welcome to the Voting Admin Area" site in
  match register models.Question admin.QuestionAdmin site with
  | (site, Some e) => (site, Some e)
  | (site, None) => register models.Choice admin.ChoiceAdmin site
  end.

End admin_effects.

(** What [register] stores for the two models of the module, and a site
    that carries the three titles of the module over a given registry. *)
Definition question_admin : ModelAdmin :=
  {| admin_class := admin.QuestionAdmin; admin_model := models.Question |}.

Definition choice_admin : ModelAdmin :=
  {| admin_class := admin.ChoiceAdmin; admin_model := models.Choice |}.

Definition titled (r : gmap string ModelAdmin) : AdminSite :=
  {| site_header := "St. Francis School Student Council Elections";
     site_title := "Voting Admin Portal";
     index_title := "Welcome to the Voting Admin Area";
     _registry := r |}.

(** * Properties *)

(** ** Strings *)

#[local] Arguments String.append !_ _ / : simpl nomatch.

Section StringFacts.

Lemma strip_prefix_app (p s r : string) :
  Chars.strip_prefix p s = Some r -> s = p +:+ r.
Proof.
  revert s; induction p as [|a p IH]; intros s H; simpl in *.
  - now inversion H.
  - destruct s as [|b s]; [discriminate|].
    destruct (Ascii.eqb_spec a b) as [->|]; [|discriminate].
    now rewrite (IH _ H).
Qed.

Lemma append_empty_r (s : string) : s +:+ "" = s.
Proof. induction s as [|c s IH]; simpl; [reflexivity | now rewrite IH]. Qed.

Lemma nonempty_app (a b : string) :
  Chars.nonempty a = true -> Chars.nonempty (a +:+ b) = true.
Proof. now destruct a. Qed.

Lemma strip_prefix_refl (p : string) : Chars.strip_prefix p p = Some "".
Proof. induction p as [|a p IH]; simpl; [reflexivity | now rewrite Ascii.eqb_refl]. Qed.

Lemma digit_not_slash (c : ascii) : Chars.is_digit c = true -> Chars.is_slash c = false.
Proof.
  unfold Chars.is_slash. destruct (Ascii.eqb_spec c "/") as [->|]; [|reflexivity].
  vm_compute. discriminate.
Qed.

Lemma first_segment_digits (ds r : string) :
  Chars.all Chars.is_digit ds = true ->
  Chars.first_segment (ds +:+ String "/" r) = ds.
Proof.
  induction ds as [|c ds IH]; simpl; intros H; [reflexivity|].
  apply andb_true_iff in H as [Hc Hds].
  now rewrite (digit_not_slash _ Hc), (IH Hds).
Qed.

Lemma first_some_app {A B : Type} (f : A -> option B) (l1 l2 : list A) :
  first_some f (l1 ++ l2) =
  match first_some f l1 with Some b => Some b | None => first_some f l2 end.
Proof.
  induction l1 as [|a l1 IH]; simpl; [reflexivity|].
  destruct (f a); [reflexivity | exact IH].
Qed.

Lemma first_some_map {A B C : Type} (g : A -> B) (f : B -> option C) (l : list A) :
  first_some f (map g l) = first_some (fun a => f (g a)) l.
Proof.
  induction l as [|a l IH]; simpl; [reflexivity|].
  destruct (f (g a)); [reflexivity | exact IH].
Qed.

Lemma first_some_ext {A B : Type} (f g : A -> option B) (l : list A) :
  (forall a, f a = g a) -> first_some f l = first_some g l.
Proof.
  intros E; induction l as [|a l IH]; simpl; [reflexivity|].
  now rewrite E, IH.
Qed.

Lemma first_some_In {A B : Type} (f : A -> option B) (l : list A) (b : B) :
  first_some f l = Some b -> exists a, In a l /\ f a = Some b.
Proof.
  induction l as [|a l IH]; simpl; [discriminate|].
  destruct (f a) eqn:E.
  - intros [= <-]. exists a; auto.
  - intros H. destruct (IH H) as (a' & Hin & Ha'). exists a'; auto.
Qed.

Lemma first_some_single {A B : Type} (f : A -> option B) (a : A) :
  first_some f [a] = f a.
Proof. simpl. now destruct (f a). Qed.

Lemma class_splits_cons (cls : ascii -> bool) (c : ascii) (s : string) :
  cls c = true ->
  class_splits cls (String c s)
  = map (fun '(cap, rest) => (String c cap, rest)) (class_splits cls s)
      ++ [(String c EmptyString, s)].
Proof. intros H. simpl. now rewrite H. Qed.

Lemma class_splits_stop (cls : ascii -> bool) (c : ascii) (s : string) :
  cls c = false -> class_splits cls (String c s) = [].
Proof. intros H. simpl. now rewrite H. Qed.

(** Every way [class_splits] offers cuts the text in two, and the captured
    half is a non-empty run of the class. *)
Lemma class_splits_In (cls : ascii -> bool) (s cap rest : string) :
  In (cap, rest) (class_splits cls s) ->
  s = cap +:+ rest /\ Chars.nonempty cap = true /\ Chars.all cls cap = true.
Proof.
  revert cap rest; induction s as [|c s IH]; simpl; intros cap rest H; [tauto|].
  destruct (cls c) eqn:Hc; [|contradiction].
  apply in_app_or in H as [H|H].
  - apply in_map_iff in H as ([cap' rest'] & [= <- <-] & Hin).
    destruct (IH _ _ Hin) as (-> & _ & Hall).
    simpl. now rewrite Hc, Hall.
  - destruct H as [[= <- <-]|[]]. simpl. now rewrite Hc.
Qed.

End StringFacts.

(** ** An [int] parameter followed by a slash *)

Section IntCapture.

Variables (e : bool) (name lit : string) (ps : list part).

Let tail : list part := Literal (String "/" lit) :: ps.

Let try_split (k : string -> string)
  : string * string -> option (list (string * string) * string) :=
  fun '(cap, rest) =>
    match match_parts e tail rest with
    | Some (groups, new_path) => Some ((name, k cap) :: groups, new_path)
    | None => None
    end.

Lemma tail_unfold (c : ascii) (s : string) :
  match_parts e tail (String c s)
  = if Ascii.eqb "/" c
    then match Chars.strip_prefix lit s with
         | Some rest => match_parts e ps rest
         | None => None
         end
    else None.
Proof. subst tail. cbn [match_parts Chars.strip_prefix]. now destruct (Ascii.eqb "/" c). Qed.

Lemma tail_rejects_digit (d : ascii) (s : string) :
  Chars.is_digit d = true -> match_parts e tail (String d s) = None.
Proof.
  intros Hd. rewrite tail_unfold.
  destruct (Ascii.eqb_spec "/" d) as [<-|]; [|reflexivity].
  vm_compute in Hd. discriminate.
Qed.

Lemma tail_accepts (s : string) (m : list (string * string) * string) :
  match_parts e tail s = Some m -> exists r, s = String "/" r.
Proof.
  destruct s as [|c s]; [subst tail; discriminate|].
  rewrite tail_unfold.
  destruct (Ascii.eqb_spec "/" c) as [<-|]; [eauto | discriminate].
Qed.

(** The regex engine backtracks through shorter and shorter runs of digits;
    only the whole run is followed by the slash. *)
Lemma digits_then_slash (ds r : string) (k : string -> string) :
  Chars.is_decimal ds = true ->
  first_some (try_split k) (class_splits Chars.is_digit (ds +:+ String "/" r))
  = try_split k (ds, String "/" r).
Proof.
  unfold Chars.is_decimal. revert k.
  induction ds as [|c ds IH]; intros k H; [discriminate|].
  cbn [Chars.nonempty Chars.all andb] in H. apply andb_true_iff in H as [Hc Hds].
  change (String c ds +:+ String "/" r) with (String c (ds +:+ String "/" r)).
  rewrite class_splits_cons by exact Hc.
  rewrite first_some_app, first_some_map.
  rewrite (first_some_ext _ (try_split (fun cap => k (String c cap)))).
  2: { intros [cap rest]. reflexivity. }
  destruct ds as [|d ds].
  - change ("" +:+ String "/" r) with (String "/" r).
    rewrite class_splits_stop by reflexivity.
    cbn [first_some]. apply first_some_single.
  - rewrite IH by exact Hds.
    cbn [Chars.all] in Hds. apply andb_true_iff in Hds as [Hd _].
    rewrite first_some_single.
    change (String d ds +:+ String "/" r) with (String d (ds +:+ String "/" r)).
    unfold try_split.
    rewrite (tail_rejects_digit d _ Hd).
    now destruct (match_parts e tail (String "/" r)) as [[? ?]|].
Qed.

Lemma match_int_capture (ds r : string) :
  Chars.is_decimal ds = true ->
  match_parts e (Literal "" :: Capture name IntConverter :: tail) (ds +:+ String "/" r)
  = match match_parts e tail (String "/" r) with
    | Some (groups, new_path) => Some ((name, ds) :: groups, new_path)
    | None => None
    end.
Proof.
  intros H.
  change (match_parts e (Literal "" :: Capture name IntConverter :: tail) (ds +:+ String "/" r))
    with (first_some (try_split (fun cap => cap))
            (class_splits Chars.is_digit (ds +:+ String "/" r))).
  now rewrite digits_then_slash.
Qed.

(** A path such a route matches starts with a decimal segment. *)
Lemma match_int_capture_inv (path : string) (m : list (string * string) * string) :
  match_parts e (Literal "" :: Capture name IntConverter :: tail) path = Some m ->
  Chars.is_decimal (Chars.first_segment path) = true.
Proof.
  change (match_parts e (Literal "" :: Capture name IntConverter :: tail) path)
    with (first_some (try_split (fun cap => cap)) (class_splits Chars.is_digit path)).
  intros H. apply first_some_In in H as ([cap rest] & Hin & Hm).
  apply class_splits_In in Hin as (-> & Hne & Hall).
  unfold try_split in Hm.
  destruct (match_parts e tail rest) as [g|] eqn:E; [|discriminate].
  apply tail_accepts in E as [r ->].
  rewrite first_segment_digits by exact Hall.
  unfold Chars.is_decimal. now rewrite Hne, Hall.
Qed.

End IntCapture.

(** ** Decimal text *)

Section Decimal.

Lemma string_of_uint_digits (d : Decimal.uint) :
  Chars.all Chars.is_digit (NilEmpty.string_of_uint d) = true.
Proof. induction d; simpl; [reflexivity | exact IHd ..]. Qed.

Lemma nilzero_string_decimal (d : Decimal.uint) :
  Chars.is_decimal (NilZero.string_of_uint d) = true.
Proof.
  unfold Chars.is_decimal.
  destruct d; [reflexivity | ..];
    cbn [NilZero.string_of_uint NilEmpty.string_of_uint Chars.nonempty Chars.all andb];
    rewrite string_of_uint_digits; reflexivity.
Qed.

(** What [str] prints for a number that is not negative is decimal text,
    and [int] reads the number back. *)
Lemma py_str_nonneg (n : Z) (text : string) :
  (0 <= n)%Z ->
  py_str n = Some text ->
  Chars.is_decimal text = true /\ py_int text = Some n.
Proof.
  intros Hn. unfold py_str, py_int.
  destruct n as [|p|p]; [| | lia].
  - intros [= <-]. split; reflexivity.
  - cbn [Z.to_int NilZero.string_of_int].
    destruct (within_digit_limit (NilZero.string_of_uint (Pos.to_uint p))) eqn:L;
      [|discriminate].
    intros [= <-]. split; [apply nilzero_string_decimal|].
    rewrite L, NilZero.usu by apply DecimalPos.Unsigned.to_uint_nonnil.
    unfold N.of_uint. now rewrite DecimalPos.Unsigned.of_to.
Qed.

End Decimal.

(** ** Resolution over a URLconf *)

Section Resolution.

Lemma URLPattern_resolve_parts (app route nm : string) (v : views.view)
    (ps : list part) (request : string) :
  _route_to_regex route = Ok ps ->
  URLPattern_resolve app (path route v nm) request
  = Ok (match match_parts true ps request with
        | Some (groups, new_path) =>
            match convert_groups ps groups with
            | Some kw =>
                Some {| func := v; kwargs := kw; url_name := nm;
                        app_names := [app]; route := route |}
            | None => None
            end
        | None => None
        end).
Proof.
  intros H. unfold URLPattern_resolve, RoutePattern_match, path.
  cbn [pattern _route _is_endpoint bind].
  rewrite H. cbn [bind callback pattern_name _route pattern].
  destruct (match_parts true ps request) as [[g new_path]|]; [|reflexivity].
  now destruct (convert_groups ps g).
Qed.

(** Whatever a pattern resolves to carries the pattern's own view. *)
Lemma URLPattern_resolve_func (app : string) (p : URLPattern) (request : string)
    (m : ResolverMatch) :
  URLPattern_resolve app p request = Ok (Some m) -> func m = callback p.
Proof.
  unfold URLPattern_resolve.
  destruct (RoutePattern_match (pattern p) request) as [[[new_path kw]|]|e]; cbn [bind];
    intros H; inversion H; reflexivity.
Qed.

(** First match: an answer of the resolver is the answer of one of the
    patterns. *)
Lemma resolve_patterns_In (app : string) (ps : list URLPattern) (request : string)
    (m : ResolverMatch) :
  resolve_patterns app ps request = Ok m ->
  exists p, In p ps /\ URLPattern_resolve app p request = Ok (Some m).
Proof.
  induction ps as [|p ps IH]; cbn [resolve_patterns]; [discriminate|].
  destruct (URLPattern_resolve app p request) as [[m'|]|e] eqn:E; cbn [bind].
  - intros [= <-]. exists p. split; [now left | exact E].
  - intros H. destruct (IH H) as (q & Hq & Hm). exists q. split; [now right | exact Hm].
  - discriminate.
Qed.

(** A route without parameters matches the path equal to it; the empty
    route matches the empty path only. *)
Lemma resolve_empty_route (app nm : string) (v : views.view) (request : string) :
  Chars.nonempty request = true ->
  URLPattern_resolve app (path "" v nm) request = Ok None.
Proof.
  intros H. rewrite (URLPattern_resolve_parts _ _ _ _ [Literal ""]) by reflexivity.
  now destruct request.
Qed.

(** The three routes of the table that start with [<int:question_id>/]. *)
Lemma int_route_parts (lit : string) :
  In lit [""; "results/"; "vote/"] ->
  _route_to_regex ("<int:question_id>/" +:+ lit)
  = Ok [Literal ""; Capture "question_id" IntConverter; Literal (String "/" lit)].
Proof. intros [<-|[<-|[<-|[]]]]; reflexivity. Qed.

Lemma int_route_rejects (app nm lit : string) (v : views.view) (request : string) :
  In lit [""; "results/"; "vote/"] ->
  Chars.is_decimal (Chars.first_segment request) = false ->
  URLPattern_resolve app (path ("<int:question_id>/" +:+ lit) v nm) request = Ok None.
Proof.
  intros Hlit Hseg.
  rewrite (URLPattern_resolve_parts _ _ _ _ _ _ (int_route_parts lit Hlit)).
  destruct (match_parts true _ request) as [[g new_path]|] eqn:E; [|reflexivity].
  apply match_int_capture_inv in E. congruence.
Qed.

End Resolution.

(** ** The URL table *)

Section UrlTable.

(** C1. The URLconf has the application namespace [polls] and exactly five
    routes, in this order: the empty route to [views.index] (named index),
    [<int:question_id>/] to [views.detail] (detail),
    [<int:question_id>/results/] to [views.results] (results),
    [<int:question_id>/vote/] to [views.vote] (vote), and the empty route
    once more to [views.home] (home); the views named are those five, each
    once. *)
Theorem urlconf_declares_five_routes :
  urls.app_name = "polls"
  /\ length urls.urlpatterns = 5
  /\ map (fun p => (_route (pattern p), callback p, name p)) urls.urlpatterns
     = [ ("", views.index, "index");
         ("<int:question_id>/", views.detail, "detail");
         ("<int:question_id>/results/", views.results, "results");
         ("<int:question_id>/vote/", views.vote, "vote");
         ("", views.home, "home") ]
  /\ map (fun p => _is_endpoint (pattern p)) urls.urlpatterns
     = [true; true; true; true; true]
  /\ map (fun p => _route_to_regex (_route (pattern p))) urls.urlpatterns
     = [ Ok [Literal ""];
         Ok [Literal ""; Capture "question_id" IntConverter; Literal "/"];
         Ok [Literal ""; Capture "question_id" IntConverter; Literal "/results/"];
         Ok [Literal ""; Capture "question_id" IntConverter; Literal "/vote/"];
         Ok [Literal ""] ].
Proof. repeat split. Qed.

(** The whole table on a path whose first segment is not a decimal integer:
    the empty path goes to [views.index], every other one is a 404. *)
Lemma resolve_without_decimal_segment (request : string) :
  Chars.is_decimal (Chars.first_segment request) = false ->
  urls.resolve request
  = match request with
    | EmptyString => Ok urls.index_match
    | String _ _ => Raise Resolver404
    end.
Proof.
  intros Hseg. destruct request as [|c s]; [reflexivity|].
  unfold urls.resolve, urls.urlpatterns. cbn [resolve_patterns].
  rewrite !resolve_empty_route by reflexivity.
  rewrite (int_route_rejects _ _ "" _ _ ltac:(simpl; tauto) Hseg).
  assert (H3 : URLPattern_resolve urls.app_name
                 (path "<int:question_id>/results/" views.results "results") (String c s)
               = Ok None)
    by exact (int_route_rejects _ _ "results/" _ _ ltac:(simpl; tauto) Hseg).
  assert (H4 : URLPattern_resolve urls.app_name
                 (path "<int:question_id>/vote/" views.vote "vote") (String c s)
               = Ok None)
    by exact (int_route_rejects _ _ "vote/" _ _ ltac:(simpl; tauto) Hseg).
  cbn [bind]. rewrite H3. cbn [bind]. rewrite H4. reflexivity.
Qed.

(** No route of the table is misconfigured: matching a path against any of
    the five patterns returns, with a match or with none. *)
Lemma urlpatterns_match_total (request : string) (p : URLPattern) :
  In p urls.urlpatterns ->
  exists r : option ResolverMatch, URLPattern_resolve urls.app_name p request = Ok r.
Proof.
  unfold urls.urlpatterns. cbn [In].
  intros [<-|[<-|[<-|[<-|[<-|[]]]]]];
    erewrite URLPattern_resolve_parts by reflexivity; eauto.
Qed.

(** C2. The first route (index) and the last route (home) both bind the
    empty path, and the first one wins: the root path resolves to
    [views.index], although the home pattern taken alone matches it too, and
    no request path at all is dispatched to [views.home]. *)
Theorem home_route_is_shadowed_by_index :
  urls.resolve "" = Ok urls.index_match
  /\ URLPattern_resolve urls.app_name (path "" views.home "home") ""
     = Ok (Some {| func := views.home; kwargs := []; url_name := "home";
                   app_names := ["polls"]; route := "" |})
  /\ (forall request : string, urls.dispatches_to views.home request = false).
Proof.
  split; [reflexivity|]. split; [reflexivity|].
  intros request. unfold urls.dispatches_to, urls.dispatch.
  destruct (urls.resolve request) as [m|e] eqn:E; [|reflexivity].
  destruct request as [|c s]; [now inversion E|].
  apply resolve_patterns_In in E as (p & Hin & Hp).
  rewrite (URLPattern_resolve_func _ _ _ _ Hp).
  unfold urls.urlpatterns in Hin. cbn [In] in Hin.
  destruct Hin as [<-|[<-|[<-|[<-|[<-|[]]]]]]; try reflexivity.
  now rewrite resolve_empty_route in Hp.
Qed.

(** C9. Matching a path against a pattern of this table always returns
    (a match or none, never an exception), and a path whose first segment is
    not a decimal integer is matched by none of the detail, results and vote
    patterns: each of them answers no match ([Ok None]).  Resolution of such
    a path over the whole table therefore ends in the index route (the empty
    path) or in [Resolver404]. *)
Theorem int_routes_reject_non_decimal_segment (request : string) :
  Chars.is_decimal (Chars.first_segment request) = false ->
  (forall p : URLPattern,
      In p urls.urlpatterns ->
      exists r : option ResolverMatch,
        URLPattern_resolve urls.app_name p request = Ok r)
  /\ (forall p : URLPattern,
      In p urls.urlpatterns ->
      In (callback p) [views.detail; views.results; views.vote] ->
      URLPattern_resolve urls.app_name p request = Ok None)
  /\ urls.resolve request
     = match request with
       | EmptyString => Ok urls.index_match
       | String _ _ => Raise Resolver404
       end.
Proof.
  intros Hseg. split; [intros p; apply urlpatterns_match_total|].
  split; [|now apply resolve_without_decimal_segment].
  intros p Hin Hcb. unfold urls.urlpatterns in Hin. cbn [In] in Hin.
  destruct Hin as [<-|[<-|[<-|[<-|[<-|[]]]]]]; cbn [callback path In] in Hcb.
  - now destruct Hcb as [|[|[|]]].
  - exact (int_route_rejects _ _ "" _ _ ltac:(simpl; tauto) Hseg).
  - exact (int_route_rejects _ _ "results/" _ _ ltac:(simpl; tauto) Hseg).
  - exact (int_route_rejects _ _ "vote/" _ _ ltac:(simpl; tauto) Hseg).
  - now destruct Hcb as [|[|[|]]].
Qed.

Lemma int_routes_reject_non_decimal_segment_witness :
  Chars.is_decimal (Chars.first_segment "abc/vote/") = false
  /\ URLPattern_resolve urls.app_name
       (path "<int:question_id>/vote/" views.vote "vote") "abc/vote/" = Ok None
  /\ urls.resolve "abc/vote/" = Raise Resolver404.
Proof.
  destruct (int_routes_reject_non_decimal_segment "abc/vote/" eq_refl) as (_ & Hp & Hr).
  split; [reflexivity|]. split; [|exact Hr].
  apply Hp; simpl; tauto.
Defined.

End UrlTable.

(** ** The admin site's registry *)

Section Registry.

Lemma is_registered_false (site : AdminSite) (m : models.model) :
  _registry site !! m = None -> is_registered site m = false.
Proof.
  intros H. unfold is_registered. apply bool_decide_eq_false.
  rewrite H. intros [x Hx]. discriminate.
Qed.

Lemma is_registered_true (site : AdminSite) (m : models.model) (a : ModelAdmin) :
  _registry site !! m = Some a -> is_registered site m = true.
Proof.
  intros H. unfold is_registered. apply bool_decide_eq_true. rewrite H. eauto.
Qed.

Lemma register_fresh (site : AdminSite) (m : models.model) (cls : ModelAdminClass) :
  _registry site !! m = None ->
  exists site',
    register m cls site = Ok site'
    /\ _registry site'
       = <[m := {| admin_class := cls; admin_model := m |}]> (_registry site)
    /\ site_header site' = site_header site
    /\ site_title site' = site_title site
    /\ index_title site' = index_title site.
Proof.
  intros H. unfold register. rewrite (is_registered_false _ _ H).
  eexists. repeat split.
Qed.

(** Registering a model twice is refused. *)
Lemma register_twice (site : AdminSite) (m : models.model) (cls : ModelAdminClass)
    (a : ModelAdmin) :
  _registry site !! m = Some a -> register m cls site = Raise (AlreadyRegistered m).
Proof. intros H. unfold register. now rewrite (is_registered_true _ _ _ H). Qed.

(** C3. Running the admin module on a site that has neither model yet
    succeeds and registers exactly two models: [Question] with
    [QuestionAdmin] and [Choice] with [ChoiceAdmin]; the entry of every
    other model is left as it was, so the registered models are the earlier
    ones and these two. *)
Theorem admin_registers_question_and_choice (site : AdminSite) :
  _registry site !! models.Question = None ->
  _registry site !! models.Choice = None ->
  exists site' : AdminSite,
    admin.run site = Ok site'
    /\ _registry site' !! models.Question
       = Some {| admin_class := admin.QuestionAdmin; admin_model := models.Question |}
    /\ _registry site' !! models.Choice
       = Some {| admin_class := admin.ChoiceAdmin; admin_model := models.Choice |}
    /\ (forall m : models.model,
           m <> models.Question -> m <> models.Choice ->
           _registry site' !! m = _registry site !! m)
    /\ dom (_registry site') = dom (_registry site) ∪ {[models.Question; models.Choice]}
    /\ size (_registry site') = S (S (size (_registry site))).
Proof.
  intros HQ HC. unfold admin.run.
  set (s0 := set_index_title _ (set_site_title _ (set_site_header _ site))).
  assert (HQ0 : _registry s0 !! models.Question = None) by exact HQ.
  destruct (register_fresh s0 models.Question admin.QuestionAdmin HQ0)
    as (s1 & -> & R1 & _).
  cbn [bind].
  assert (HC1 : _registry s1 !! models.Choice = None).
  { rewrite R1, lookup_insert_ne by discriminate. exact HC. }
  destruct (register_fresh s1 models.Choice admin.ChoiceAdmin HC1)
    as (s2 & -> & R2 & _).
  cbn [bind]. exists s2. split; [reflexivity|].
  rewrite R2, R1. change (_registry s0) with (_registry site).
  repeat split.
  - rewrite lookup_insert_ne by discriminate. apply lookup_insert_eq.
  - apply lookup_insert_eq.
  - intros m Hq Hc.
    rewrite lookup_insert_ne by (intros E; apply Hc; symmetry; exact E).
    apply lookup_insert_ne. intros E; apply Hq; symmetry; exact E.
  - rewrite !dom_insert_L. apply set_eq. intros x.
    rewrite !elem_of_union, !elem_of_singleton. tauto.
  - rewrite !map_size_insert_None; [reflexivity | exact HQ |].
    rewrite lookup_insert_ne by discriminate. exact HC.
Qed.

Lemma admin_registers_question_and_choice_witness :
  exists site' : AdminSite,
    admin.run default_site = Ok site'
    /\ _registry site' !! models.Question
       = Some {| admin_class := admin.QuestionAdmin; admin_model := models.Question |}
    /\ _registry site' !! models.Choice
       = Some {| admin_class := admin.ChoiceAdmin; admin_model := models.Choice |}
    /\ (forall m : models.model,
           m <> models.Question -> m <> models.Choice ->
           _registry site' !! m = _registry default_site !! m)
    /\ dom (_registry site')
       = dom (_registry default_site) ∪ {[models.Question; models.Choice]}
    /\ size (_registry site') = S (S (size (_registry default_site))).
Proof.
  apply (admin_registers_question_and_choice default_site); reflexivity.
Defined.

End Registry.

(** ** The admin classes *)

Section AdminClasses.

(** C4. The Choice change list shows the columns choice_text, question,
    image and votes, in this order, and the inline editor edits the fields
    choice_text, image and votes: a Choice is shown with the Question it
    belongs to, its vote counter and its image. *)
Theorem choice_admin_columns_and_inline_fields :
  list_display admin.ChoiceAdmin = Some ["choice_text"; "question"; "image"; "votes"]
  /\ fields admin.ChoiceInline = Some ["choice_text"; "image"; "votes"].
Proof. split; reflexivity. Qed.

(** C5. [QuestionAdmin.fieldsets] has two sections: an untitled one with
    question_text, which does not fold, and one titled Date Information
    with pub_date, which does (class collapse); the change list shows the
    columns question_text, pub_date and was_published_recently. *)
Theorem question_admin_fieldsets_and_columns :
  fieldsets admin.QuestionAdmin
  = Some [ (None, [("fields", ["question_text"])]);
           (Some "Date Information",
            [("fields", ["pub_date"]); ("classes", ["collapse"])]) ]
  /\ map section_summary (default [] (fieldsets admin.QuestionAdmin))
     = [ (None, ["question_text"], false);
         (Some "Date Information", ["pub_date"], true) ]
  /\ list_display admin.QuestionAdmin
     = Some ["question_text"; "pub_date"; "was_published_recently"].
Proof. repeat split. Qed.

(** C6. The Question admin page edits Choices inline: the inlines of
    [QuestionAdmin] are [ChoiceInline] and nothing else, and [ChoiceInline]
    is a tabular inline over the model [Choice]. *)
Theorem question_admin_inlines_choice :
  inlines admin.QuestionAdmin = Some [admin.ChoiceInline]
  /\ inline_base admin.ChoiceInline = TabularInline
  /\ model admin.ChoiceInline = Some models.Choice
  /\ inlines admin.ChoiceAdmin = None.
Proof. repeat split. Qed.

(** C8. The declared filters and search fields: [QuestionAdmin] filters on
    pub_date and searches question_text, [ChoiceAdmin] filters on question
    and searches choice_text, and neither declares any other. *)
Theorem admin_filters_and_search_fields :
  list_filter admin.QuestionAdmin = Some ["pub_date"]
  /\ search_fields admin.QuestionAdmin = Some ["question_text"]
  /\ list_filter admin.ChoiceAdmin = Some ["question"]
  /\ search_fields admin.ChoiceAdmin = Some ["choice_text"].
Proof. repeat split. Qed.




End AdminClasses.

(** ** The table on some paths *)

Section Examples.

Example resolve_detail_leading_zeros :
  urls.resolve "007/"
  = Ok {| func := views.detail; kwargs := [("question_id", PyInt 7)];
          url_name := "detail"; app_names := ["polls"];
          route := "<int:question_id>/" |}.
Proof. reflexivity. Qed.

Example resolve_vote :
  urls.dispatch "34/vote/" = Some views.vote.
Proof. reflexivity. Qed.

Example resolve_missing_trailing_slash :
  urls.resolve "12/vote" = Raise Resolver404.
Proof. reflexivity. Qed.

Example resolve_trailing_text :
  urls.resolve "12/results/x" = Raise Resolver404.
Proof. reflexivity. Qed.

Example register_admin_module_twice :
  (do site <- admin.run default_site; admin.run site)
  = Raise (AlreadyRegistered models.Question).
Proof. reflexivity. Qed.

Example admin_module_titles :
  (do site <- admin.run default_site;
   Ok (site_header site, site_title site, index_title site))
  = Ok ("St. Francis School Student Council Elections",
        "Voting Admin Portal",
        "Welcome to the Voting Admin Area").
Proof. reflexivity. Qed.

Example digit_limit_of_int :
  within_digit_limit (replicate 4300 "1") = true
  /\ within_digit_limit (replicate 4301 "1") = false
  /\ py_int (replicate 4301 "1") = None.
Proof. repeat split; vm_compute; reflexivity. Qed.

Example extra_forms_on_some_pages :
  map (extra_forms_displayed admin.ChoiceInline true) [0; 4; 997; 998; 999; 1000; 1200]%Z
  = [3; 3; 3; 2; 1; 0; 0]%Z.
Proof. reflexivity. Qed.

End Examples.

(** ** Cutting a path at its first slash *)

Section FirstSlash.

Lemma partition_slash_Some (s a b : string) :
  Chars.partition "/" s = Some (a, b) ->
  s = a +:+ String "/" b /\ Chars.first_segment s = a.
Proof.
  revert a; induction s as [|c s IH]; intros a H; cbn [Chars.partition] in H;
    [discriminate|].
  cbn [Chars.first_segment]. unfold Chars.is_slash.
  destruct (Ascii.eqb_spec c "/") as [->|Hc].
  - inversion H; subst. split; reflexivity.
  - destruct (Chars.partition "/" s) as [[a' b']|]; [|discriminate].
    inversion H; subst. destruct (IH a' eq_refl) as [E1 E2].
    split; simpl; congruence.
Qed.

Lemma partition_slash_app (a b : string) :
  Chars.partition "/" (a +:+ String "/" b) <> None.
Proof.
  induction a as [|c a IH]; simpl.
  - discriminate.
  - destruct (Ascii.eqb c "/"); [discriminate|].
    destruct (Chars.partition "/" (a +:+ String "/" b)) as [[? ?]|];
      [discriminate | contradiction].
Qed.

Lemma ends_with_slash_app (a lit : string) :
  In lit [""; "results/"; "vote/"] ->
  urls_table.ends_with_slash (a +:+ String "/" lit) = true.
Proof.
  intros Hlit. induction a as [|c a IH].
  - destruct Hlit as [<-|[<-|[<-|[]]]]; reflexivity.
  - change (String c a +:+ String "/" lit) with (String c (a +:+ String "/" lit)).
    cbn [urls_table.ends_with_slash].
    destruct (a +:+ String "/" lit) eqn:E; [|exact IH].
    destruct a; discriminate.
Qed.

End FirstSlash.

(** ** Decimal text, leading zeros included *)

Section DecimalText.

Lemma uint_of_string_digits (ds : string) :
  Chars.all Chars.is_digit ds = true ->
  exists d, NilEmpty.uint_of_string ds = Some d.
Proof.
  induction ds as [|c ds IH]; intros H; [now exists Decimal.Nil|].
  cbn [Chars.all] in H. apply andb_true_iff in H as [Hc Hds].
  destruct (IH Hds) as [d Hd]. cbn [NilEmpty.uint_of_string]. rewrite Hd.
  destruct c as [[|] [|] [|] [|] [|] [|] [|] [|]]; try discriminate Hc;
    eexists; reflexivity.
Qed.

(** Within the digit limit [int] never fails on what the converter's regex
    lets through; beyond it, it always does; and what it yields is never
    negative. *)
Lemma py_int_decimal (ds : string) :
  Chars.is_decimal ds = true ->
  within_digit_limit ds = true ->
  exists n, py_int ds = Some n.
Proof.
  unfold Chars.is_decimal. intros H L. apply andb_true_iff in H as [Hne Hall].
  destruct (uint_of_string_digits ds Hall) as [d Hd].
  unfold py_int, NilZero.uint_of_string. rewrite L.
  destruct ds as [|c ds]; [discriminate|]. rewrite Hd.
  eexists. reflexivity.
Qed.

Lemma py_int_over_limit (ds : string) :
  within_digit_limit ds = false -> py_int ds = None.
Proof. intros L. unfold py_int. now rewrite L. Qed.

Lemma py_int_nonneg (ds : string) (n : Z) : py_int ds = Some n -> (0 <= n)%Z.
Proof.
  unfold py_int. destruct (within_digit_limit ds); [|discriminate].
  destruct (NilZero.uint_of_string ds); [|discriminate].
  intros [= <-]. apply N2Z.is_nonneg.
Qed.

Lemma py_int_leading_zero (ds : string) :
  Chars.is_decimal ds = true ->
  within_digit_limit (String "0" ds) = true ->
  py_int (String "0" ds) = py_int ds.
Proof.
  unfold Chars.is_decimal. intros H L0. apply andb_true_iff in H as [Hne Hall].
  assert (L : within_digit_limit ds = true).
  { unfold within_digit_limit in *. cbn [String.length] in L0.
    apply Nat.leb_le in L0. apply Nat.leb_le. lia. }
  destruct (uint_of_string_digits ds Hall) as [d Hd].
  unfold py_int, NilZero.uint_of_string. rewrite L0, L.
  destruct ds as [|c ds]; [discriminate|].
  cbn [NilEmpty.uint_of_string] in *. rewrite Hd. reflexivity.
Qed.

End DecimalText.

(** ** What the three [question_id] routes match *)

Section IntRoutes.

Variables (app nm lit : string) (v : views.view).
Hypothesis Hlit : In lit [""; "results/"; "vote/"].

Let the_route : string := "<int:question_id>/" +:+ lit.

Let the_match (n : Z) : ResolverMatch :=
  {| func := v; kwargs := [("question_id", PyInt n)]; url_name := nm;
     app_names := [app]; route := the_route |}.

(** A decimal segment, a slash and the rest: the route matches when the rest
    is its own, and passes the value of the segment. *)
Lemma int_route_on_decimal (ds r : string) :
  Chars.is_decimal ds = true ->
  URLPattern_resolve app (path the_route v nm) (ds +:+ String "/" r)
  = Ok (if String.eqb r lit
        then match py_int ds with
             | Some n => Some (the_match n)
             | None => None
             end
        else None).
Proof using Hlit.
  intros Hd. subst the_route the_match.
  rewrite (URLPattern_resolve_parts _ _ _ _ _ _ (int_route_parts lit Hlit)).
  rewrite match_int_capture by exact Hd.
  cbn [match_parts Chars.strip_prefix]. rewrite Ascii.eqb_refl.
  destruct (String.eqb_spec r lit) as [->|Hne].
  - rewrite strip_prefix_refl.
    cbn [convert_groups converter_of first_some]. rewrite String.eqb_refl.
    cbn [to_python]. now destruct (py_int ds).
  - destruct (Chars.strip_prefix lit r) as [rest|] eqn:E; [|reflexivity].
    apply strip_prefix_app in E. destruct rest; [|reflexivity].
    exfalso. apply Hne. rewrite E. apply append_empty_r.
Qed.

(** Conversely, a path the route matches is a decimal segment, a slash and
    the rest of the route, and the view gets the value of the segment. *)
Lemma int_route_inv (request : string) (m : ResolverMatch) :
  URLPattern_resolve app (path the_route v nm) request = Ok (Some m) ->
  exists ds n,
    request = ds +:+ String "/" lit
    /\ Chars.is_decimal ds = true
    /\ py_int ds = Some n
    /\ (0 <= n)%Z
    /\ m = the_match n.
Proof using Hlit.
  subst the_route the_match.
  rewrite (URLPattern_resolve_parts _ _ _ _ _ _ (int_route_parts lit Hlit)).
  destruct (match_parts true _ request) as [[g new_path]|] eqn:E; [|discriminate].
  pose proof (match_int_capture_inv _ _ _ _ _ _ E) as Hseg.
  cbn [match_parts Chars.strip_prefix] in E.
  apply first_some_In in E as ([cap rest] & Hin & Hm).
  apply class_splits_In in Hin as (-> & Hne & Hall).
  assert (Hd : Chars.is_decimal cap = true)
    by (unfold Chars.is_decimal; cbn [converter_class] in Hall; now rewrite Hne, Hall).
  destruct rest as [|c rest]; [discriminate|].
  destruct (Ascii.eqb_spec "/" c) as [<-|]; [|discriminate].
  destruct (Chars.strip_prefix lit rest) as [tl|] eqn:S; [|discriminate].
  apply strip_prefix_app in S. destruct tl; [|discriminate].
  rewrite append_empty_r in S. subst rest. inversion Hm; subst g new_path.
  cbn [convert_groups converter_of first_some]. rewrite String.eqb_refl.
  cbn [to_python]. destruct (py_int cap) as [n|] eqn:Hn; [|discriminate].
  cbn [option_map]. intros [= <-]. exists cap, n.
  repeat split; try assumption. exact (py_int_nonneg _ _ Hn).
Qed.

Lemma int_route_needs_slash (request : string) :
  Chars.partition "/" request = None ->
  URLPattern_resolve app (path the_route v nm) request = Ok None.
Proof using Hlit.
  intros HP.
  destruct (URLPattern_resolve app (path the_route v nm) request) as [[m|]|e] eqn:E.
  - apply int_route_inv in E as (ds & n & -> & _).
    now apply partition_slash_app in HP.
  - reflexivity.
  - subst the_route.
    rewrite (URLPattern_resolve_parts _ _ _ _ _ _ (int_route_parts lit Hlit)) in E.
    discriminate.
Qed.

End IntRoutes.

(** ** The table as a whole *)

Section WholeTable.

Lemma is_decimal_nonempty (ds : string) :
  Chars.is_decimal ds = true -> Chars.nonempty ds = true.
Proof. unfold Chars.is_decimal. intros H. now apply andb_true_iff in H as [? _]. Qed.

Lemma resolve_on_decimal (ds r : string) :
  Chars.is_decimal ds = true ->
  urls.resolve (ds +:+ String "/" r)
  = match py_int ds with
    | None => Raise Resolver404
    | Some n =>
        if String.eqb r ""
        then Ok (urls_table.int_match views.detail "detail" "<int:question_id>/" n)
        else if String.eqb r "results/"
        then Ok (urls_table.int_match views.results "results"
                   "<int:question_id>/results/" n)
        else if String.eqb r "vote/"
        then Ok (urls_table.int_match views.vote "vote" "<int:question_id>/vote/" n)
        else Raise Resolver404
    end.
Proof.
  intros Hd. unfold urls.resolve, urls.urlpatterns. cbn [resolve_patterns].
  rewrite !resolve_empty_route by (apply nonempty_app; now apply is_decimal_nonempty).
  assert (H2 : URLPattern_resolve urls.app_name
                 (path "<int:question_id>/" views.detail "detail")
                 (ds +:+ String "/" r)
               = Ok (if String.eqb r ""
                     then match py_int ds with
                          | Some n =>
                              Some (urls_table.int_match views.detail "detail"
                                      "<int:question_id>/" n)
                          | None => None
                          end
                     else None))
    by exact (int_route_on_decimal urls.app_name "detail" "" views.detail
                ltac:(simpl; tauto) ds r Hd).
  assert (H3 : URLPattern_resolve urls.app_name
                 (path "<int:question_id>/results/" views.results "results")
                 (ds +:+ String "/" r)
               = Ok (if String.eqb r "results/"
                     then match py_int ds with
                          | Some n =>
                              Some (urls_table.int_match views.results "results"
                                      "<int:question_id>/results/" n)
                          | None => None
                          end
                     else None))
    by exact (int_route_on_decimal urls.app_name "results" "results/" views.results
                ltac:(simpl; tauto) ds r Hd).
  assert (H4 : URLPattern_resolve urls.app_name
                 (path "<int:question_id>/vote/" views.vote "vote")
                 (ds +:+ String "/" r)
               = Ok (if String.eqb r "vote/"
                     then match py_int ds with
                          | Some n =>
                              Some (urls_table.int_match views.vote "vote"
                                      "<int:question_id>/vote/" n)
                          | None => None
                          end
                     else None))
    by exact (int_route_on_decimal urls.app_name "vote" "vote/" views.vote
                ltac:(simpl; tauto) ds r Hd).
  cbn [bind]. rewrite H2, H3, H4.
  destruct (py_int ds) as [n|];
    destruct (String.eqb r ""), (String.eqb r "results/"), (String.eqb r "vote/");
    reflexivity.
Qed.

Lemma resolve_without_slash (c : ascii) (s : string) :
  Chars.partition "/" (String c s) = None ->
  urls.resolve (String c s) = Raise Resolver404.
Proof.
  intros HP. unfold urls.resolve, urls.urlpatterns. cbn [resolve_patterns].
  rewrite !resolve_empty_route by reflexivity.
  assert (H2 : URLPattern_resolve urls.app_name
                 (path "<int:question_id>/" views.detail "detail") (String c s)
               = Ok None)
    by exact (int_route_needs_slash urls.app_name "detail" "" views.detail
                ltac:(simpl; tauto) _ HP).
  assert (H3 : URLPattern_resolve urls.app_name
                 (path "<int:question_id>/results/" views.results "results")
                 (String c s)
               = Ok None)
    by exact (int_route_needs_slash urls.app_name "results" "results/" views.results
                ltac:(simpl; tauto) _ HP).
  assert (H4 : URLPattern_resolve urls.app_name
                 (path "<int:question_id>/vote/" views.vote "vote") (String c s)
               = Ok None)
    by exact (int_route_needs_slash urls.app_name "vote" "vote/" views.vote
                ltac:(simpl; tauto) _ HP).
  cbn [bind]. rewrite H2. cbn [bind]. rewrite H3. cbn [bind]. rewrite H4. reflexivity.
Qed.

Lemma resolve_decide (request : string) :
  urls.resolve request = urls_table.decide request.
Proof.
  destruct request as [|c s]; [reflexivity|].
  unfold urls_table.decide.
  destruct (Chars.partition "/" (String c s)) as [[segment rest]|] eqn:HP.
  - destruct (partition_slash_Some _ _ _ HP) as [E Hseg].
    destruct (Chars.is_decimal segment) eqn:Hd.
    + rewrite E. now apply resolve_on_decimal.
    + rewrite resolve_without_decimal_segment by (now rewrite Hseg). reflexivity.
  - now apply resolve_without_slash.
Qed.

End WholeTable.

(** ** The vote tally in the two modules *)

Section Tally.

(** C7, as the modules have it.  Neither module defines a function or a
    method, and the views and the models are names they import: the vote
    tally has no implementation in them.  What they hold of it is its admin
    surface, [votes] being named by the fields of the inline editor and by
    the columns of the Choice change list and nowhere else, and its route:
    [views.results] is named by one route, [<int:question_id>/results/], and
    for every non-negative [question_id] that [str] can print (at most 4300
    digits) the path made of its decimal text and [/results/] resolves to
    [views.results] with that [question_id]. *)
Theorem tally_has_surface_and_route_only (question_id : Z) (text : string) :
  (0 <= question_id)%Z ->
  py_str question_id = Some text ->
  source.defined_functions source.urls_py = []
  /\ source.defined_functions source.admin_py = []
  /\ source.imported_names source.urls_py = ["path"; "settings"; "static"; "views"]
  /\ source.imported_names source.admin_py = ["admin"; "Question"; "Choice"]
  /\ admin_mentions "votes"
     = [("ChoiceInline", "fields"); ("ChoiceAdmin", "list_display")]
  /\ urls.routes_of views.results = ["<int:question_id>/results/"]
  /\ urls.resolve (text +:+ "/results/")
     = Ok {| func := views.results;
             kwargs := [("question_id", PyInt question_id)];
             url_name := "results";
             app_names := ["polls"];
             route := "<int:question_id>/results/" |}.
Proof.
  intros Hn Ht. destruct (py_str_nonneg _ _ Hn Ht) as [Hd Hi].
  repeat split.
  rewrite resolve_on_decimal by exact Hd. rewrite Hi. reflexivity.
Qed.

Lemma tally_has_surface_and_route_only_witness :
  (0 <= 42)%Z
  /\ py_str 42 = Some "42"
  /\ urls.resolve "42/results/"
     = Ok {| func := views.results;
             kwargs := [("question_id", PyInt 42)];
             url_name := "results";
             app_names := ["polls"];
             route := "<int:question_id>/results/" |}.
Proof.
  split; [lia|]. split; [reflexivity|].
  destruct (tally_has_surface_and_route_only 42 "42" ltac:(lia) eq_refl)
    as (_ & _ & _ & _ & _ & _ & H).
  exact H.
Defined.

(** C7 as stated fails for a negative [question_id], because the [int]
    converter reads digits only, and for one of more than 4300 digits,
    because [int] refuses the text: neither path reaches a view. *)
Lemma results_route_rejects_negative_and_oversized_id :
  py_str (-1) = Some "-1"
  /\ urls.resolve "-1/results/" = Raise Resolver404
  /\ urls.dispatch "-1/results/" = None
  /\ String.length (replicate 4301 "1") = 4301
  /\ urls.resolve (replicate 4301 "1" +:+ "/results/") = Raise Resolver404.
Proof.
  split; [reflexivity|]. split; [reflexivity|]. split; [reflexivity|].
  split; [vm_compute; reflexivity|].
  assert (D : Chars.is_decimal (replicate 4301 "1") = true)
    by (vm_compute; reflexivity).
  rewrite (resolve_on_decimal _ "results/" D).
  rewrite py_int_over_limit by (vm_compute; reflexivity).
  reflexivity.
Qed.

End Tally.

(** ** Further properties of the URL table *)

Section UrlTableMore.

(** X1. Resolution over [urlpatterns], with its regexes, backtracking and
    first match, decides exactly what the table says read route by route:
    the empty path is the index; otherwise the path is cut at its first
    slash, the first segment must be a decimal integer that [int] accepts
    (at most 4300 digits) and the rest must be empty (detail), [results/] or
    [vote/]; everything else is a 404. *)
Theorem resolve_is_table_lookup (request : string) :
  urls.resolve request = urls_table.decide request.
Proof. exact (resolve_decide request). Qed.

(** X2. For every non-negative [question_id] that [str] can print (at most
    4300 digits), its decimal text followed by a slash resolves to
    [views.detail], and followed by [/vote/] to [views.vote], each with that
    [question_id]. *)
Theorem detail_and_vote_routes_for_nonnegative_id (question_id : Z) (text : string) :
  (0 <= question_id)%Z ->
  py_str question_id = Some text ->
  urls.resolve (text +:+ "/")
  = Ok (urls_table.int_match views.detail "detail" "<int:question_id>/" question_id)
  /\ urls.resolve (text +:+ "/vote/")
     = Ok (urls_table.int_match views.vote "vote" "<int:question_id>/vote/"
             question_id).
Proof.
  intros Hn Ht. destruct (py_str_nonneg _ _ Hn Ht) as [Hd Hi].
  split; rewrite resolve_on_decimal by exact Hd; rewrite Hi; reflexivity.
Qed.

Lemma detail_and_vote_routes_for_nonnegative_id_witness :
  (0 <= 15)%Z
  /\ py_str 15 = Some "15"
  /\ urls.resolve "15/"
     = Ok (urls_table.int_match views.detail "detail" "<int:question_id>/" 15)
  /\ urls.resolve "15/vote/"
     = Ok (urls_table.int_match views.vote "vote" "<int:question_id>/vote/" 15).
Proof.
  split; [lia|]. split; [reflexivity|].
  exact (detail_and_vote_routes_for_nonnegative_id 15 "15" ltac:(lia) eq_refl).
Defined.

(** X3. A leading zero changes nothing as long as the segment stays within
    the digit limit of [int]: a path whose decimal first segment gets a zero
    in front then resolves to the same view with the same [question_id], or
    fails in the same way.  A segment of 4300 digits is at the limit: with
    one more zero the path is a 404. *)
Theorem leading_zero_same_resolution (ds r : string) :
  Chars.is_decimal ds = true ->
  urls.resolve (String "0" ds +:+ String "/" r)
  = if within_digit_limit (String "0" ds)
    then urls.resolve (ds +:+ String "/" r)
    else Raise Resolver404.
Proof.
  intros Hd.
  assert (Hd0 : Chars.is_decimal (String "0" ds) = true).
  { unfold Chars.is_decimal in *. apply andb_true_iff in Hd as [_ Hall].
    cbn [Chars.nonempty Chars.all]. now rewrite Hall. }
  rewrite (resolve_on_decimal (String "0" ds) r Hd0).
  destruct (within_digit_limit (String "0" ds)) eqn:L.
  - rewrite (resolve_on_decimal ds r Hd). now rewrite py_int_leading_zero.
  - now rewrite py_int_over_limit.
Qed.

Lemma leading_zero_same_resolution_witness :
  Chars.is_decimal "7" = true
  /\ urls.resolve "07/results/" = urls.resolve "7/results/".
Proof.
  split; [reflexivity|].
  exact (leading_zero_same_resolution "7" "results/" eq_refl).
Defined.

(** X4. Every route of the table but the empty one ends with a slash: a
    non-empty path that does not end with a slash is a 404. *)
Theorem path_without_trailing_slash_is_404 (request : string) :
  Chars.nonempty request = true ->
  urls_table.ends_with_slash request = false ->
  urls.resolve request = Raise Resolver404.
Proof.
  intros Hne Hend. rewrite resolve_decide. unfold urls_table.decide.
  destruct request as [|c s]; [discriminate|].
  destruct (Chars.partition "/" (String c s)) as [[segment rest]|] eqn:HP;
    [|reflexivity].
  destruct (partition_slash_Some _ _ _ HP) as [E _].
  destruct (Chars.is_decimal segment); [|reflexivity].
  destruct (py_int segment); [|reflexivity].
  destruct (String.eqb_spec rest "") as [->|_].
  { rewrite E, ends_with_slash_app in Hend by (simpl; tauto). discriminate. }
  destruct (String.eqb_spec rest "results/") as [->|_].
  { rewrite E, ends_with_slash_app in Hend by (simpl; tauto). discriminate. }
  destruct (String.eqb_spec rest "vote/") as [->|_]; [|reflexivity].
  rewrite E, ends_with_slash_app in Hend by (simpl; tauto). discriminate.
Qed.

Lemma path_without_trailing_slash_is_404_witness :
  Chars.nonempty "12/vote" = true
  /\ urls_table.ends_with_slash "12/vote" = false
  /\ urls.resolve "12/vote" = Raise Resolver404.
Proof.
  split; [reflexivity|]. split; [reflexivity|].
  exact (path_without_trailing_slash_is_404 "12/vote" eq_refl eq_refl).
Defined.

(** X5. What a view is called with: a path that resolves is either the empty
    path, answered by the index route without arguments, or it reaches
    detail, results or vote with exactly one keyword argument,
    [question_id], a non-negative integer; the name of the route is then the
    name of the view, under the application namespace [polls]. *)
Theorem resolved_view_arguments (request : string) (m : ResolverMatch) :
  urls.resolve request = Ok m ->
  (request = "" /\ m = urls.index_match)
  \/ (exists question_id : Z,
         (0 <= question_id)%Z
         /\ kwargs m = [("question_id", PyInt question_id)]
         /\ In (func m) [views.detail; views.results; views.vote]
         /\ url_name m = views.view_name (func m)
         /\ app_names m = ["polls"]).
Proof.
  rewrite resolve_decide. unfold urls_table.decide.
  destruct request as [|c s]; [intros [= <-]; now left|].
  destruct (Chars.partition "/" (String c s)) as [[segment rest]|]; [|discriminate].
  destruct (Chars.is_decimal segment) eqn:Hd; [|discriminate].
  destruct (py_int segment) as [n|] eqn:Hn; [|discriminate].
  pose proof (py_int_nonneg _ _ Hn) as Hpos.
  destruct (String.eqb rest "");
    [|destruct (String.eqb rest "results/");
      [|destruct (String.eqb rest "vote/"); [|discriminate]]];
    intros [= <-]; right; exists n; cbn; tauto.
Qed.

Lemma resolved_view_arguments_witness :
  (("5/vote/" : string) = "" /\
   urls_table.int_match views.vote "vote" "<int:question_id>/vote/" 5
   = urls.index_match)
  \/ (exists question_id : Z,
         (0 <= question_id)%Z
         /\ kwargs (urls_table.int_match views.vote "vote" "<int:question_id>/vote/" 5)
            = [("question_id", PyInt question_id)]
         /\ In (func (urls_table.int_match views.vote "vote" "<int:question_id>/vote/" 5))
              [views.detail; views.results; views.vote]
         /\ url_name (urls_table.int_match views.vote "vote" "<int:question_id>/vote/" 5)
            = views.view_name
                (func (urls_table.int_match views.vote "vote" "<int:question_id>/vote/" 5))
         /\ app_names (urls_table.int_match views.vote "vote" "<int:question_id>/vote/" 5)
            = ["polls"]).
Proof.
  exact (resolved_view_arguments "5/vote/" _ eq_refl).
Defined.

End UrlTableMore.

(** ** No overlap but at the root *)

Section Overlap.

Lemma same_rest (a b x y : string) :
  Chars.is_decimal a = true ->
  Chars.is_decimal b = true ->
  a +:+ String "/" x = b +:+ String "/" y ->
  x = y.
Proof.
  unfold Chars.is_decimal. intros Ha Hb E.
  apply andb_true_iff in Ha as [_ Ha]. apply andb_true_iff in Hb as [_ Hb].
  pose proof (f_equal Chars.first_segment E) as F.
  rewrite !first_segment_digits in F by assumption. subst b.
  apply String.app_inj in E. now inversion E.
Qed.

(** Which pattern of the table matched a non-empty path, and the shape of
    the path. *)
Lemma matching_pattern (request : string) (p : URLPattern) (m : ResolverMatch) :
  Chars.nonempty request = true ->
  In p urls.urlpatterns ->
  URLPattern_resolve urls.app_name p request = Ok (Some m) ->
  exists ds lit,
    Chars.is_decimal ds = true
    /\ request = ds +:+ String "/" lit
    /\ ((lit = "" /\ p = path "<int:question_id>/" views.detail "detail")
        \/ (lit = "results/"
            /\ p = path "<int:question_id>/results/" views.results "results")
        \/ (lit = "vote/" /\ p = path "<int:question_id>/vote/" views.vote "vote")).
Proof.
  intros Hne Hin H. unfold urls.urlpatterns in Hin. cbn [In] in Hin.
  destruct Hin as [<-|[<-|[<-|[<-|[<-|[]]]]]].
  - now rewrite resolve_empty_route in H.
  - apply (int_route_inv urls.app_name "detail" "" views.detail ltac:(simpl; tauto))
      in H as (ds & n & -> & Hd & _).
    exists ds, "". split; [exact Hd|]. split; [reflexivity|]. left. now split.
  - apply (int_route_inv urls.app_name "results" "results/" views.results
             ltac:(simpl; tauto)) in H as (ds & n & -> & Hd & _).
    exists ds, "results/". split; [exact Hd|]. split; [reflexivity|].
    right; left. now split.
  - apply (int_route_inv urls.app_name "vote" "vote/" views.vote ltac:(simpl; tauto))
      in H as (ds & n & -> & Hd & _).
    exists ds, "vote/". split; [exact Hd|]. split; [reflexivity|].
    right; right. now split.
  - now rewrite resolve_empty_route in H.
Qed.

(** X6. The root is the only path two routes compete for: a non-empty path
    is matched by at most one pattern of the table, so for it the order of
    the routes does not matter. *)
Theorem nonempty_path_matches_one_route (request : string) (p q : URLPattern)
    (mp mq : ResolverMatch) :
  Chars.nonempty request = true ->
  In p urls.urlpatterns ->
  In q urls.urlpatterns ->
  URLPattern_resolve urls.app_name p request = Ok (Some mp) ->
  URLPattern_resolve urls.app_name q request = Ok (Some mq) ->
  p = q.
Proof.
  intros Hne Hp Hq Mp Mq.
  destruct (matching_pattern _ _ _ Hne Hp Mp) as (a & x & Ha & Ex & Cp).
  destruct (matching_pattern _ _ _ Hne Hq Mq) as (b & y & Hb & Ey & Cq).
  assert (x = y) as <- by (apply (same_rest a b); congruence).
  destruct Cp as [[-> ->]|[[-> ->]|[-> ->]]];
    destruct Cq as [[E ->]|[[E ->]|[E ->]]]; (reflexivity || discriminate E).
Qed.

Lemma nonempty_path_matches_one_route_witness :
  Chars.nonempty "3/" = true
  /\ path "<int:question_id>/" views.detail "detail"
     = path "<int:question_id>/" views.detail "detail".
Proof.
  split; [reflexivity|].
  refine (nonempty_path_matches_one_route "3/"
            (path "<int:question_id>/" views.detail "detail")
            (path "<int:question_id>/" views.detail "detail")
            (urls_table.int_match views.detail "detail" "<int:question_id>/" 3)
            (urls_table.int_match views.detail "detail" "<int:question_id>/" 3)
            eq_refl _ _ eq_refl eq_refl); simpl; tauto.
Defined.

End Overlap.

(** ** Running the admin module *)

Section AdminRun.

Lemma is_registered_insert_ne (site : AdminSite) (m m' : models.model) (a : ModelAdmin)
    (h t i : string) :
  m <> m' ->
  is_registered {| site_header := h; site_title := t; index_title := i;
                   _registry := <[m := a]> (_registry site) |} m'
  = is_registered site m'.
Proof.
  intros Hne. unfold is_registered. cbn [_registry].
  now rewrite lookup_insert_ne by exact Hne.
Qed.

Lemma run_cases (site : AdminSite) :
  admin.run site
  = if is_registered site models.Question
    then Raise (AlreadyRegistered models.Question)
    else if is_registered site models.Choice
    then Raise (AlreadyRegistered models.Choice)
    else Ok (titled (<[models.Choice := choice_admin]>
                       (<[models.Question := question_admin]> (_registry site)))).
Proof.
  unfold admin.run, register at 1.
  change (is_registered (set_index_title _ (set_site_title _ (set_site_header _ site)))
            models.Question)
    with (is_registered site models.Question).
  destruct (is_registered site models.Question); [reflexivity|].
  cbn [bind]. unfold register.
  cbn [site_header site_title index_title _registry
       set_index_title set_site_title set_site_header].
  rewrite is_registered_insert_ne by discriminate.
  destruct (is_registered site models.Choice); reflexivity.
Qed.

Lemma effects_cases (site : AdminSite) :
  admin_effects.run site
  = if is_registered site models.Question
    then (titled (_registry site), Some (AlreadyRegistered models.Question))
    else if is_registered site models.Choice
    then (titled (<[models.Question := question_admin]> (_registry site)),
          Some (AlreadyRegistered models.Choice))
    else (titled (<[models.Choice := choice_admin]>
                    (<[models.Question := question_admin]> (_registry site))),
          None).
Proof.
  unfold admin_effects.run, admin_effects.register at 1, register at 1.
  change (is_registered (set_index_title _ (set_site_title _ (set_site_header _ site)))
            models.Question)
    with (is_registered site models.Question).
  destruct (is_registered site models.Question); [reflexivity|].
  unfold admin_effects.register, register.
  cbn [site_header site_title index_title _registry
       set_index_title set_site_title set_site_header].
  rewrite is_registered_insert_ne by discriminate.
  destruct (is_registered site models.Choice); reflexivity.
Qed.

End AdminRun.

(** ** Further properties of the admin module *)

Section AdminMore.

(** X7. What running the module does, in every case: it raises
    [AlreadyRegistered] for [Question] when that model is registered
    already, for [Choice] when only that one is, and otherwise succeeds with
    the three titles set and the two models added to the registry. *)
Theorem admin_run_outcome (site : AdminSite) :
  admin.run site
  = if is_registered site models.Question
    then Raise (AlreadyRegistered models.Question)
    else if is_registered site models.Choice
    then Raise (AlreadyRegistered models.Choice)
    else Ok (titled (<[models.Choice := choice_admin]>
                       (<[models.Question := question_admin]> (_registry site)))).
Proof. exact (run_cases site). Qed.

(** X8. The module cannot be run twice on the same site: after a run that
    succeeded, a second run raises [AlreadyRegistered] for [Question]. *)
Theorem admin_run_twice_fails (site site' : AdminSite) :
  admin.run site = Ok site' ->
  admin.run site' = Raise (AlreadyRegistered models.Question).
Proof.
  rewrite run_cases.
  destruct (is_registered site models.Question); [discriminate|].
  destruct (is_registered site models.Choice); [discriminate|].
  intros [= <-]. rewrite run_cases.
  rewrite (is_registered_true _ _ question_admin); [reflexivity|].
  unfold titled. cbn [_registry].
  rewrite lookup_insert_ne by discriminate. apply lookup_insert_eq.
Qed.

Lemma admin_run_twice_fails_witness :
  admin.run default_site
  = Ok (titled (<[models.Choice := choice_admin]>
                  (<[models.Question := question_admin]> ∅)))
  /\ admin.run (titled (<[models.Choice := choice_admin]>
                          (<[models.Question := question_admin]> ∅)))
     = Raise (AlreadyRegistered models.Question).
Proof.
  split; [reflexivity|].
  exact (admin_run_twice_fails default_site _ eq_refl).
Defined.

(** X9. The site as the module leaves it, exception or not.  The three
    titles are set in every case, because they are assigned before the
    first registration; a refused registration of [Question] leaves the
    registry as it was; a refused registration of [Choice] leaves
    [Question] registered.  The outcome is the one of [admin.run]. *)
Theorem admin_effects_outcome (site : AdminSite) :
  admin_effects.run site
  = (if is_registered site models.Question
     then (titled (_registry site), Some (AlreadyRegistered models.Question))
     else if is_registered site models.Choice
     then (titled (<[models.Question := question_admin]> (_registry site)),
           Some (AlreadyRegistered models.Choice))
     else (titled (<[models.Choice := choice_admin]>
                     (<[models.Question := question_admin]> (_registry site))),
           None))
  /\ admin.run site
     = match snd (admin_effects.run site) with
       | None => Ok (fst (admin_effects.run site))
       | Some e => Raise e
       end.
Proof.
  split; [exact (effects_cases site)|].
  rewrite effects_cases, run_cases.
  destruct (is_registered site models.Question); [reflexivity|].
  destruct (is_registered site models.Choice); reflexivity.
Qed.

(** X10. Half a registration: on a site where [Choice] has an admin already
    and [Question] has none, the module raises [AlreadyRegistered] for
    [Choice], yet [Question] is registered with [QuestionAdmin] by then;
    [Choice] keeps the admin it had, and every other model its entry. *)
Theorem admin_partial_registration (site : AdminSite) (earlier : ModelAdmin) :
  _registry site !! models.Question = None ->
  _registry site !! models.Choice = Some earlier ->
  snd (admin_effects.run site) = Some (AlreadyRegistered models.Choice)
  /\ _registry (fst (admin_effects.run site)) !! models.Question = Some question_admin
  /\ _registry (fst (admin_effects.run site)) !! models.Choice = Some earlier
  /\ (forall m : models.model,
         m <> models.Question ->
         _registry (fst (admin_effects.run site)) !! m = _registry site !! m).
Proof.
  intros HQ HC. rewrite effects_cases.
  rewrite (is_registered_false _ _ HQ), (is_registered_true _ _ _ HC).
  cbn [fst snd titled _registry]. repeat split.
  - apply lookup_insert_eq.
  - rewrite lookup_insert_ne by discriminate. exact HC.
  - intros m Hm. apply lookup_insert_ne. intros E. apply Hm. symmetry. exact E.
Qed.

Lemma admin_partial_registration_witness :
  snd (admin_effects.run (titled (<[models.Choice := choice_admin]> ∅)))
  = Some (AlreadyRegistered models.Choice)
  /\ _registry (fst (admin_effects.run (titled (<[models.Choice := choice_admin]> ∅))))
       !! models.Question = Some question_admin.
Proof.
  destruct (admin_partial_registration
              (titled (<[models.Choice := choice_admin]> ∅)) choice_admin)
    as (H1 & H2 & _); [reflexivity | reflexivity |].
  split; [exact H1 | exact H2].
Defined.

End AdminMore.
